(** * swarm_service: the service model, its differ, translator and driver

    A shallow embedding of [cloud/docker/swarm_service.py] (Python 2):
    the [DockerService] value object, [compare_services],
    [generate_docker_py_service_description], [get_service] and the
    decision tree of [main], followed by the properties of the
    reconciliation engine.

    Conventions.
    - A Python [int]/[long] is a [Z]; [/] on two of them is floor division.
    - A Python [float] is an IEEE 754 binary64 value, here a [spec_float]
      of the Standard Library with precision 53 and maximal exponent 1024;
      [*], [/] and the comparisons are the correctly rounded ones.
    - A [dict] used as a mapping is a [gmap]; a [dict] with a fixed set of
      keys is a record; a key that may be missing is an [option] field.
    - A call that may raise returns a [Result]. *)

From Stdlib Require Import ZArith String List Bool Lia.
From Stdlib Require Import Floats.SpecFloat.
From stdpp Require Import base decidable option list strings gmap.

Open Scope string_scope.
Open Scope list_scope.
Open Scope Z_scope.

(** ** Python floats *)

Module PyFloat.

Definition float : Type := spec_float.

Definition prec : Z := 53.
Definition emax : Z := 1024.

Definition nan : float := S754_nan.

(** [float(z)] for an integer [z]: the nearest binary64, ties to even. *)
Definition of_Z (z : Z) : float := binary_normalize prec emax z 0 false.

Definition mul (x y : float) : float := SFmul prec emax x y.
Definition div (x y : float) : float := SFdiv prec emax x y.

(** [x == y] and [x != y] on floats: a NaN differs from everything,
    itself included; the two zeros are equal. *)
Definition eqb (x y : float) : bool := SFeqb x y.
Definition neb (x y : float) : bool := negb (SFeqb x y).

Definition is_nan (x : float) : bool :=
  match x with S754_nan => true | _ => false end.

(** The decimal literal [n/d] for small integers [n] and [d]: both are
    binary64 values, so the rounded quotient is the nearest binary64 to
    the decimal, which is what the Python parser produces. *)
Definition decimal (n d : Z) : float := div (of_Z n) (of_Z d).

(** Magnitude of a finite float with mantissa [m] and exponent [e],
    truncated to an integer. *)
Definition trunc_mag (m : positive) (e : Z) : Z :=
  match e with
  | Zneg p => Z.shiftr (Zpos m) (Zpos p)
  | _ => Z.shiftl (Zpos m) e
  end.

(** Magnitude rounded to the nearest integer, halves away from zero. *)
Definition round_mag (m : positive) (e : Z) : Z :=
  match e with
  | Zneg p =>
      let q := Z.shiftr (Zpos m) (Zpos p) in
      let r := Zpos m - Z.shiftl q (Zpos p) in
      if Z.shiftl 1 (Zpos p) <=? 2 * r then q + 1 else q
  | _ => Z.shiftl (Zpos m) e
  end.

(** The integer value of [round(x)] for a finite [x]. *)
Definition round (x : float) : option Z :=
  match x with
  | S754_zero _ => Some 0
  | S754_finite s m e => Some (cond_Zopp s (round_mag m e))
  | _ => None
  end.

End PyFloat.

(** ** Exceptions *)

Inductive exn : Type :=
| Exception (msg : string)
| ValueError (msg : string)
| OverflowError (msg : string)
| IndexError (msg : string)
| APIError (msg : string).

Definition str_exn (e : exn) : string :=
  match e with
  | Exception m | ValueError m | OverflowError m | IndexError m | APIError m => m
  end.

Inductive Result (A : Type) : Type :=
| Ok (a : A)
| Raise (e : exn).

Arguments Ok {A} a.
Arguments Raise {A} e.

Definition bind {A B : Type} (r : Result A) (k : A -> Result B) : Result B :=
  match r with
  | Ok a => k a
  | Raise e => Raise e
  end.

Notation "x <- r ;; k" := (bind r (fun x => k))
  (at level 100, r at next level, right associativity).

(** [int(x)] on a float: truncation toward zero; NaN and the infinities
    raise. *)
Definition int_of_float (x : PyFloat.float) : Result Z :=
  match x with
  | S754_zero _ => Ok 0
  | S754_finite s m e => Ok (cond_Zopp s (PyFloat.trunc_mag m e))
  | S754_infinity _ =>
      Raise (OverflowError "cannot convert float infinity to integer")
  | S754_nan => Raise (ValueError "cannot convert float NaN to integer")
  end.

(** [float(z)] on an integer: raises when [z] is beyond the binary64
    range. *)
Definition float_of_int (z : Z) : Result PyFloat.float :=
  match PyFloat.of_Z z with
  | S754_infinity _ => Raise (OverflowError "long int too large to convert to float")
  | x => Ok x
  end.

(** [x != y] for values compared structurally (strings, integers, lists,
    dicts of those). *)
Definition ne {A : Type} `{EqDecision A} (x y : A) : bool :=
  negb (bool_decide (x = y)).

(** ** The service model *)

(** An item of [mounts] and an item of [publish], each taken with its three
    keys present: a dict that lacks one of them makes the translation raise
    [KeyError] and lies outside this model. *)
Record Mount : Type := {
  source : string;
  target : string;
  type : string
}.

Record Port : Type := {
  protocol : string;
  published_port : Z;
  target_port : Z
}.

#[global] Instance Mount_eq_dec : EqDecision Mount.
Proof. solve_decision. Defined.

#[global] Instance Port_eq_dec : EqDecision Port.
Proof. solve_decision. Defined.

(** [DockerServiceManager.DockerService]. The identity fields start as
    [False] and the restart-policy fields as [None]; both are [None]
    here. *)
Record DockerService : Type := {
  constraints : list string;
  image : string;
  args : list string;
  endpoint_mode : string;
  env : list string;
  labels : gmap string string;
  container_labels : gmap string string;
  limit_cpu : PyFloat.float;
  limit_memory : Z;
  reserve_cpu : PyFloat.float;
  reserve_memory : Z;
  mode : string;
  mounts : list Mount;
  networks : list string;
  publish : list Port;
  replicas : Z;
  service_id : option string;
  service_version : option Z;
  restart_policy : option string;
  restart_policy_attempts : option Z;
  restart_policy_delay : option Z;
  restart_policy_window : option Z
}.

(** [DockerService.__init__]. *)
Definition DockerService_init : DockerService := {|
  constraints := [];
  image := "";
  args := [];
  endpoint_mode := "vip";
  env := [];
  labels := ∅;
  container_labels := ∅;
  limit_cpu := PyFloat.of_Z 0;
  limit_memory := 0;
  reserve_cpu := PyFloat.of_Z 0;
  reserve_memory := 0;
  mode := "replicated";
  mounts := [];
  networks := [];
  publish := [];
  replicas := 1;
  service_id := None;
  service_version := None;
  restart_policy := None;
  restart_policy_attempts := None;
  restart_policy_delay := None;
  restart_policy_window := None
|}.

(** ** The differ *)

(** The result of [compare_services]: [(len(changes) > 0, changes,
    need_recreate)]. *)
Record Diff : Type := {
  changed : bool;
  changes : list string;
  need_recreate : bool
}.

(** [if c: changes.append(field)]. *)
Definition append_if (c : bool) (field : string) (changes : list string)
  : list string :=
  if c then changes ++ [field] else changes.

(** [DockerServiceManager.compare_services]. *)
Definition compare_services (s1 s2 : DockerService) : Diff :=
  let changes := [] in
  let need_recreate := false in
  let changes := append_if (ne (endpoint_mode s1) (endpoint_mode s2)) "endpoint_mode" changes in
  let changes := append_if (ne (env s1) (env s2)) "env" changes in
  let changes := append_if (ne (mode s1) (mode s2)) "mode" changes in
  let changes := append_if (ne (mounts s1) (mounts s2)) "mounts" changes in
  let changes := append_if (ne (networks s1) (networks s2)) "networks" changes in
  let need_recreate :=
    if ne (networks s1) (networks s2) then true else need_recreate in
  let changes := append_if (ne (replicas s1) (replicas s2)) "replicas" changes in
  let changes := append_if (ne (args s1) (args s2)) "args" changes in
  let changes := append_if (ne (constraints s1) (constraints s2)) "constraints" changes in
  let changes := append_if (ne (labels s1) (labels s2)) "labels" changes in
  let changes := append_if (PyFloat.neb (limit_cpu s1) (limit_cpu s2)) "limit_cpu" changes in
  let changes := append_if (ne (limit_memory s1) (limit_memory s2)) "limit_memory" changes in
  let changes := append_if (PyFloat.neb (reserve_cpu s1) (reserve_cpu s2)) "reserve_cpu" changes in
  let changes := append_if (ne (reserve_memory s1) (reserve_memory s2)) "reserve_memory" changes in
  let changes := append_if (ne (container_labels s1) (container_labels s2)) "container_labels" changes in
  let changes := append_if (ne (publish s1) (publish s2)) "publish" changes in
  {| changed := (0 <? length changes)%nat;
     changes := changes;
     need_recreate := need_recreate |}.

(** ** Wire structures handed to the docker client *)

Module Wire.

Record Mount : Type := {
  Target : string;
  Source : string;
  Type_ : string
}.

Record ContainerSpec : Type := {
  Image : string;
  Mounts : list Mount;
  Args : list string;
  Env : list string;
  Labels : gmap string string
}.

(** [docker.types.RestartPolicy(condition, delay, max_attempts, window)]:
    the docker client's own type, taken as a record of its arguments. *)
Record RestartPolicy : Type := {
  condition : option string;
  delay : option Z;
  max_attempts : option Z;
  window : option Z
}.

Record ResourceValues : Type := {
  NanoCPUs : Z;
  MemoryBytes : Z
}.

Record Resources : Type := {
  Limits : ResourceValues;
  Reservations : ResourceValues
}.

(** [docker.types.TaskTemplate(container_spec, restart_policy, placement,
    resources)], likewise a record of its arguments. *)
Record TaskTemplate : Type := {
  container_spec : ContainerSpec;
  restart_policy : RestartPolicy;
  placement : list string;
  resources : Resources
}.

(** [{'Replicated': {'Replicas': n}}] or [{'Global'}]. *)
Inductive Mode : Type :=
| Replicated (Replicas : Z)
| Global.

Record NetworkAttachment : Type := {
  NetTarget : string
}.

Record PortConfig : Type := {
  Protocol : string;
  PublishedPort : Z;
  TargetPort : Z
}.

Record EndpointSpec : Type := {
  Mode_ : string;
  Ports : list PortConfig
}.

(** The tuple returned by [generate_docker_py_service_description]. *)
Record Description : Type := {
  task_template : TaskTemplate;
  networks : list NetworkAttachment;
  endpoint_spec : EndpointSpec;
  mode : Mode;
  labels : gmap string string
}.

End Wire.

(** An element of [get_networks_names_ids()]: [{'name': .., 'id': ..}]. *)
Record NameId : Type := {
  name : string;
  id : string
}.

(** ** The translator *)

(** [filter(lambda n: n['name']==network_name, docker_networks)[0]['id']]
    under the bare [except: pass]: the id of the first entry with that
    name, [None] when there is none. *)
Definition find_network_id (network_name : string) (docker_networks : list NameId)
  : option string :=
  match filter (fun n => name n = network_name) docker_networks with
  | n :: _ => Some (id n)
  | [] => None
  end.

(** [if network_id:] is taken for a string that is neither [None] nor
    empty. *)
Definition truthy (network_id : option string) : bool :=
  match network_id with
  | Some s => negb (bool_decide (s = ""))
  | None => false
  end.

(** The loop over [self.networks]: appends [{'Target': network_id}] for each
    name, raising at the first name that yields no id. *)
Fixpoint resolve_networks (names : list string) (docker_networks : list NameId)
  (acc : list Wire.NetworkAttachment) : Result (list Wire.NetworkAttachment) :=
  match names with
  | [] => Ok acc
  | network_name :: rest =>
      let network_id := find_network_id network_name docker_networks in
      if truthy network_id then
        resolve_networks rest docker_networks
          (acc ++ [ {| Wire.NetTarget := default "" network_id |} ])
      else
        Raise (Exception ("no docker networks named: " +:+ network_name))
  end.

Definition mount_description (mount_config : Mount) : Wire.Mount :=
  {| Wire.Target := target mount_config;
     Wire.Source := source mount_config;
     Wire.Type_ := type mount_config |}.

Definition port_description (port : Port) : Wire.PortConfig :=
  {| Wire.Protocol := protocol port;
     Wire.PublishedPort := published_port port;
     Wire.TargetPort := target_port port |}.

(** [int(cpu*1000000000)]: the integer operand is converted to a float
    first. *)
Definition nano_cpus (cpu : PyFloat.float) : Result Z :=
  int_of_float (PyFloat.mul cpu (PyFloat.of_Z 1000000000)).

(** [DockerService.generate_docker_py_service_description]. The [name]
    argument is not used by the body. *)
Definition generate_docker_py_service_description (self : DockerService)
  (name : string) (docker_networks : list NameId) : Result Wire.Description :=
  let cspec :=
    {| Wire.Image := image self;
       Wire.Mounts := map mount_description (mounts self);
       Wire.Args := args self;
       Wire.Env := env self;
       Wire.Labels := container_labels self |} in
  let restart_policy :=
    {| Wire.condition := restart_policy self;
       Wire.delay := restart_policy_delay self;
       Wire.max_attempts := restart_policy_attempts self;
       Wire.window := restart_policy_window self |} in
  limits_cpu <- nano_cpus (limit_cpu self) ;;
  reservations_cpu <- nano_cpus (limit_cpu self) ;;
  let resources :=
    {| Wire.Limits :=
         {| Wire.NanoCPUs := limits_cpu;
            Wire.MemoryBytes := limit_memory self * 1024 * 1024 |};
       Wire.Reservations :=
         {| Wire.NanoCPUs := reservations_cpu;
            Wire.MemoryBytes := limit_memory self * 1024 * 1024 |} |} in
  let task_template :=
    {| Wire.container_spec := cspec;
       Wire.restart_policy := restart_policy;
       Wire.placement := constraints self;
       Wire.resources := resources |} in
  let mode :=
    if bool_decide (mode self = "global") then Wire.Global
    else Wire.Replicated (replicas self) in
  networks <- resolve_networks (networks self) docker_networks [] ;;
  let endpoint_spec :=
    {| Wire.Mode_ := endpoint_mode self;
       Wire.Ports := map port_description (publish self) |} in
  Ok {| Wire.task_template := task_template;
        Wire.networks := networks;
        Wire.endpoint_spec := endpoint_spec;
        Wire.mode := mode;
        Wire.labels := labels self |}.

(** ** Records returned by the docker client *)

Module Raw.

Record Mount : Type := {
  Source : string;
  Type_ : string;
  Target : string
}.

Record ContainerSpec : Type := {
  Image : string;
  Env : option (list string);
  Args : option (list string);
  Labels : option (gmap string string);
  Mounts : option (list Mount)
}.

Record Placement : Type := {
  Constraints : option (list string)
}.

Record ResourceValues : Type := {
  NanoCPUs : option Z;
  MemoryBytes : option Z
}.

Record Resources : Type := {
  Limits : option ResourceValues;
  Reservations : option ResourceValues
}.

Record TaskTemplate : Type := {
  container_spec : ContainerSpec;
  placement : option Placement;
  resources : option Resources
}.

(** The [Mode] dict: the replica count under the key [Replicated] when
    present, and whether the key [Global] is present. *)
Record Mode : Type := {
  Replicated : option Z;
  Global : bool
}.

Record NetworkAttachment : Type := {
  NetTarget : string
}.

Record Spec : Type := {
  task_template : TaskTemplate;
  SpecLabels : option (gmap string string);
  mode : Mode;
  Networks : option (list NetworkAttachment)
}.

Record PortConfig : Type := {
  Protocol : string;
  PublishedPort : Z;
  TargetPort : Z
}.

Record EndpointSpec : Type := {
  EndpointMode : option string;
  Ports : option (list PortConfig)
}.

Record Endpoint : Type := {
  EndpointSpec_ : option EndpointSpec
}.

Record Service : Type := {
  ID : string;
  VersionIndex : Z;
  spec : Spec;
  endpoint : option Endpoint
}.

(** An element of [dc.networks()]. *)
Record Network : Type := {
  Name : string;
  Id : string
}.

End Raw.

(** ** The state fetcher *)

(** [float(nano)/1000000000]. *)
Definition cpu_of_nano (nano : Z) : Result PyFloat.float :=
  x <- float_of_int nano ;;
  Ok (PyFloat.div x (PyFloat.of_Z 1000000000)).

(** [int(bytes)/1024/1024], two floor divisions. *)
Definition mb_of_bytes (bytes : Z) : Z := bytes / 1024 / 1024.

(** [[n['name'] for n in networks_names_ids if n['id']==target][0]]. *)
Definition network_name_of_id (networks_names_ids : list NameId) (tgt : string)
  : Result string :=
  match filter (fun n => id n = tgt) networks_names_ids with
  | n :: _ => Ok (name n)
  | [] => Raise (IndexError "list index out of range")
  end.

Fixpoint network_names (networks_names_ids : list NameId)
  (raw : list Raw.NetworkAttachment) (acc : list string) : Result (list string) :=
  match raw with
  | [] => Ok acc
  | raw_network_data :: rest =>
      network_name <- network_name_of_id networks_names_ids
                        (Raw.NetTarget raw_network_data) ;;
      network_names networks_names_ids rest (acc ++ [network_name])
  end.

Definition fetched_port (port : Raw.PortConfig) : Port :=
  {| protocol := Raw.Protocol port;
     published_port := Raw.PublishedPort port;
     target_port := Raw.TargetPort port |}.

Definition fetched_mount (mount_data : Raw.Mount) : Mount :=
  {| source := Raw.Source mount_data;
     type := Raw.Type_ mount_data;
     target := Raw.Target mount_data |}.

(** The four [if .. in ...keys()] tests on the resources of the task
    template; a missing key leaves the default of [__init__]. *)
Definition fetched_cpu (values : option Raw.ResourceValues) (dflt : PyFloat.float)
  : Result PyFloat.float :=
  match values with
  | Some v =>
      match Raw.NanoCPUs v with
      | Some nano => cpu_of_nano nano
      | None => Ok dflt
      end
  | None => Ok dflt
  end.

Definition fetched_memory (values : option Raw.ResourceValues) (dflt : Z) : Z :=
  match values with
  | Some v =>
      match Raw.MemoryBytes v with
      | Some bytes => mb_of_bytes bytes
      | None => dflt
      end
  | None => dflt
  end.

(** The body of [get_service] after [raw_data = raw_data[0]], given the
    result of [get_networks_names_ids()]. *)
Definition service_of_raw (raw_data : Raw.Service) (networks_names_ids : list NameId)
  : Result DockerService :=
  let ds := DockerService_init in
  let task_template_data := Raw.task_template (Raw.spec raw_data) in
  let cs := Raw.container_spec task_template_data in
  let ds_constraints :=
    match Raw.placement task_template_data with
    | Some p => default [] (Raw.Constraints p)
    | None => constraints ds
    end in
  let raw_data_endpoint_spec :=
    match Raw.endpoint raw_data with
    | Some e => Raw.EndpointSpec_ e
    | None => None
    end in
  let ds_endpoint_mode :=
    match raw_data_endpoint_spec with
    | Some es => default "vip" (Raw.EndpointMode es)
    | None => endpoint_mode ds
    end in
  let ds_publish :=
    match raw_data_endpoint_spec with
    | Some es => publish ds ++ map fetched_port (default [] (Raw.Ports es))
    | None => publish ds
    end in
  let limits :=
    match Raw.resources task_template_data with
    | Some r => Raw.Limits r
    | None => None
    end in
  let reservations :=
    match Raw.resources task_template_data with
    | Some r => Raw.Reservations r
    | None => None
    end in
  ds_limit_cpu <- fetched_cpu limits (limit_cpu ds) ;;
  let ds_limit_memory := fetched_memory limits (limit_memory ds) in
  ds_reserve_cpu <- fetched_cpu reservations (reserve_cpu ds) ;;
  let ds_reserve_memory := fetched_memory reservations (reserve_memory ds) in
  let raw_mode := Raw.mode (Raw.spec raw_data) in
  mode_replicas <-
    match Raw.Replicated raw_mode with
    | Some n => Ok ("replicated", n)
    | None =>
        if Raw.Global raw_mode then Ok ("global", replicas ds)
        else Raise (Exception "Unknown service mode")
    end ;;
  let ds_mounts := mounts ds ++ map fetched_mount (default [] (Raw.Mounts cs)) in
  ds_networks <- network_names networks_names_ids
                   (default [] (Raw.Networks (Raw.spec raw_data))) (networks ds) ;;
  Ok {| constraints := ds_constraints;
        image := Raw.Image cs;
        args := default [] (Raw.Args cs);
        endpoint_mode := ds_endpoint_mode;
        env := default [] (Raw.Env cs);
        labels := default ∅ (Raw.SpecLabels (Raw.spec raw_data));
        container_labels := default ∅ (Raw.Labels cs);
        limit_cpu := ds_limit_cpu;
        limit_memory := ds_limit_memory;
        reserve_cpu := ds_reserve_cpu;
        reserve_memory := ds_reserve_memory;
        mode := fst mode_replicas;
        mounts := ds_mounts;
        networks := ds_networks;
        publish := ds_publish;
        replicas := snd mode_replicas;
        service_id := Some (Raw.ID raw_data);
        service_version := Some (Raw.VersionIndex raw_data);
        restart_policy := restart_policy ds;
        restart_policy_attempts := restart_policy_attempts ds;
        restart_policy_delay := restart_policy_delay ds;
        restart_policy_window := restart_policy_window ds |}.

(** ** The docker client and the calls made on it *)

(** The three mutating calls. The keyword arguments [endpoint_config],
    [networks], [mode], [task_template] and [labels] are the components of
    the description. *)
Inductive ApiCall : Type :=
| remove_service_call (name : string)
| create_service_call (name : string) (description : Wire.Description)
| update_service_call (service : option string) (version : option Z)
    (name : string) (description : Wire.Description).

(** What the daemon answers: [services] is [dc.services(filters={'name':
    name})], [list_networks] is [dc.networks()], and [raises] tells for a
    mutating call whether the client raises (a version conflict, a
    transport failure) or returns. *)
Record Client : Type := {
  services : string -> Result (list Raw.Service);
  list_networks : Result (list Raw.Network);
  raises : ApiCall -> option exn
}.

(** A computation that issues mutating calls: it extends the log of the
    calls issued so far and returns or raises. *)
Definition Run (A : Type) : Type := list ApiCall -> Result A * list ApiCall.

Definition ret {A : Type} (a : A) : Run A := fun log => (Ok a, log).

Definition lift {A : Type} (r : Result A) : Run A := fun log => (r, log).

Definition bindR {A B : Type} (m : Run A) (k : A -> Run B) : Run B :=
  fun log =>
    match m log with
    | (Ok a, log') => k a log'
    | (Raise e, log') => (Raise e, log')
    end.

Notation "x <~ m ;; k" := (bindR m (fun x => k))
  (at level 100, m at next level, right associativity).

Definition issue (dc : Client) (c : ApiCall) : Run unit :=
  fun log =>
    match raises dc c with
    | None => (Ok tt, log ++ [c])
    | Some e => (Raise e, log ++ [c])
    end.

(** [if not module.check_mode: body]. *)
Definition unless (check_mode : bool) (body : Run unit) : Run unit :=
  if check_mode then ret tt else body.

(** [DockerServiceManager.get_networks_names_ids]. *)
Definition get_networks_names_ids (dc : Client) : Result (list NameId) :=
  nets <- list_networks dc ;;
  Ok (map (fun n => {| name := Raw.Name n; id := Raw.Id n |}) nets).

(** [DockerServiceManager.get_service]. *)
Definition get_service (dc : Client) (name : string) : Result (option DockerService) :=
  raw_data <- services dc name ;;
  match raw_data with
  | [] => Ok None
  | raw_data :: _ =>
      networks_names_ids <- get_networks_names_ids dc ;;
      ds <- service_of_raw raw_data networks_names_ids ;;
      Ok (Some ds)
  end.

(** [DockerServiceManager.update_service]. *)
Definition update_service (dc : Client) (name : string)
  (old_service new_service : DockerService) : Run unit :=
  description <~ lift (docker_networks <- get_networks_names_ids dc ;;
                       generate_docker_py_service_description new_service name
                         docker_networks) ;;
  issue dc (update_service_call (service_id old_service)
              (service_version old_service) name description).

(** [DockerServiceManager.create_service]. *)
Definition create_service (dc : Client) (name : string) (service : DockerService)
  : Run unit :=
  description <~ lift (docker_networks <- get_networks_names_ids dc ;;
                       generate_docker_py_service_description service name
                         docker_networks) ;;
  issue dc (create_service_call name description).

(** [DockerServiceManager.remove_service]. *)
Definition remove_service (dc : Client) (name : string) : Run unit :=
  issue dc (remove_service_call name).

(** ** The declared configuration *)

(** [module.params] after validation. *)
Record Params : Type := {
  p_name : string;
  p_image : string;
  p_state : string;
  p_mounts : list Mount;
  p_networks : list string;
  p_args : list string;
  p_env : list string;
  p_publish : list Port;
  p_constraints : list string;
  p_labels : gmap string string;
  p_container_labels : gmap string string;
  p_mode : string;
  p_replicas : Z;
  p_endpoint_mode : string;
  p_restart_policy : string;
  p_limit_cpu : PyFloat.float;
  p_limit_memory : Z;
  p_reserve_cpu : PyFloat.float;
  p_reserve_memory : Z;
  p_restart_policy_delay : Z;
  p_restart_policy_attempts : Z;
  p_restart_policy_window : Z
}.

(** [DockerServiceManager.service_from_params]. *)
Definition service_from_params (params : Params) : DockerService :=
  let ds := DockerService_init in
  {| constraints := p_constraints params;
     image := p_image params;
     args := p_args params;
     endpoint_mode := p_endpoint_mode params;
     env := p_env params;
     labels := p_labels params;
     container_labels := p_container_labels params;
     limit_cpu := p_limit_cpu params;
     limit_memory := p_limit_memory params;
     reserve_cpu := p_reserve_cpu params;
     reserve_memory := p_reserve_memory params;
     mode := p_mode params;
     mounts := p_mounts params;
     networks := p_networks params;
     publish := p_publish params;
     replicas := p_replicas params;
     service_id := service_id ds;
     service_version := service_version ds;
     restart_policy := Some (p_restart_policy params);
     restart_policy_attempts := Some (p_restart_policy_attempts params);
     restart_policy_delay := Some (p_restart_policy_delay params);
     restart_policy_window := Some (p_restart_policy_window params) |}.

(** ** The convergence driver *)

(** How a run ends: [module.exit_json(msg=.., changed=..)] (a missing
    [changed] is reported as false), [module.fail_json(msg=..)], or an
    exception nobody catches. *)
Inductive Outcome : Type :=
| exit_json (msg : string) (changed : bool)
| fail_json (msg : string)
| uncaught (e : exn).

Definition finish (r : Result Outcome * list ApiCall) : Outcome * list ApiCall :=
  match r with
  | (Ok o, log) => (o, log)
  | (Raise e, log) => (uncaught e, log)
  end.

(** The decision tree of [main] once [current_service] is known. *)
Definition converge (dc : Client) (check_mode : bool) (params : Params)
  (current_service : option DockerService) : Run Outcome :=
  let new_service := service_from_params params in
  match current_service with
  | Some current_service =>
      if bool_decide (p_state params = "absent") then
        _ <~ unless check_mode (remove_service dc (p_name params)) ;;
        ret (exit_json "service removed" true)
      else
        let d := compare_services current_service new_service in
        if changed d then
          if need_recreate d then
            _ <~ unless check_mode
                   (_ <~ remove_service dc (p_name params) ;;
                    create_service dc (p_name params) new_service) ;;
            ret (exit_json ("rebuild service (changes: "
                            +:+ String.concat "," (changes d) +:+ ")") true)
          else
            _ <~ unless check_mode
                   (update_service dc (p_name params) current_service new_service) ;;
            ret (exit_json ("service edited (changes: "
                            +:+ String.concat "," (changes d) +:+ ")") true)
        else ret (exit_json "service unchanged" false)
  | None =>
      if bool_decide (p_state params = "absent") then
        ret (exit_json "service already absent" false)
      else
        _ <~ unless check_mode (create_service dc (p_name params) new_service) ;;
        ret (exit_json "service created" true)
  end.

(** [main], from the lookup of the current service on, for a client that
    could be instantiated: the outcome and the mutating calls issued. *)
Definition main (dc : Client) (check_mode : bool) (params : Params)
  : Outcome * list ApiCall :=
  match get_service dc (p_name params) with
  | Raise msg =>
      (fail_json ("Error looking for service named " +:+ p_name params
                  +:+ ": " +:+ str_exn msg), [])
  | Ok current_service =>
      finish (converge dc check_mode params current_service [])
  end.

(** ** Scenarios

    The service of the module's examples, [mydb], as declared and as the
    daemon reports it, and variations of it. *)

Definition mysql_data : Mount :=
  {| source := "/swarm_data/mysql_data/"; target := "/var/lib/mysql"; type := "bind" |}.

Definition mysql_port : Port :=
  {| protocol := "tcp"; published_port := 3306; target_port := 3306 |}.

(** The first example of the module, with the defaults of the argument
    specification for what it leaves out. *)
Definition mydb_params : Params := {|
  p_name := "mydb";
  p_image := "mysql:5.7";
  p_state := "present";
  p_mounts := [mysql_data];
  p_networks := [];
  p_args := [];
  p_env := [];
  p_publish := [mysql_port];
  p_constraints := [];
  p_labels := ∅;
  p_container_labels := ∅;
  p_mode := "replicated";
  p_replicas := 1;
  p_endpoint_mode := "vip";
  p_restart_policy := "any";
  p_limit_cpu := PyFloat.of_Z 0;
  p_limit_memory := 0;
  p_reserve_cpu := PyFloat.of_Z 0;
  p_reserve_memory := 0;
  p_restart_policy_delay := 0;
  p_restart_policy_attempts := 5;
  p_restart_policy_window := 30
|}.

Definition with_restart_policy (r : string) (p : Params) : Params := {|
  p_name := p_name p; p_image := p_image p; p_state := p_state p;
  p_mounts := p_mounts p; p_networks := p_networks p; p_args := p_args p;
  p_env := p_env p; p_publish := p_publish p; p_constraints := p_constraints p;
  p_labels := p_labels p; p_container_labels := p_container_labels p;
  p_mode := p_mode p; p_replicas := p_replicas p;
  p_endpoint_mode := p_endpoint_mode p;
  p_restart_policy := r;
  p_limit_cpu := p_limit_cpu p; p_limit_memory := p_limit_memory p;
  p_reserve_cpu := p_reserve_cpu p; p_reserve_memory := p_reserve_memory p;
  p_restart_policy_delay := p_restart_policy_delay p;
  p_restart_policy_attempts := p_restart_policy_attempts p;
  p_restart_policy_window := p_restart_policy_window p
|}.

Definition with_networks (l : list string) (p : Params) : Params := {|
  p_name := p_name p; p_image := p_image p; p_state := p_state p;
  p_mounts := p_mounts p; p_networks := l; p_args := p_args p;
  p_env := p_env p; p_publish := p_publish p; p_constraints := p_constraints p;
  p_labels := p_labels p; p_container_labels := p_container_labels p;
  p_mode := p_mode p; p_replicas := p_replicas p;
  p_endpoint_mode := p_endpoint_mode p;
  p_restart_policy := p_restart_policy p;
  p_limit_cpu := p_limit_cpu p; p_limit_memory := p_limit_memory p;
  p_reserve_cpu := p_reserve_cpu p; p_reserve_memory := p_reserve_memory p;
  p_restart_policy_delay := p_restart_policy_delay p;
  p_restart_policy_attempts := p_restart_policy_attempts p;
  p_restart_policy_window := p_restart_policy_window p
|}.

Definition with_state (st : string) (p : Params) : Params := {|
  p_name := p_name p; p_image := p_image p; p_state := st;
  p_mounts := p_mounts p; p_networks := p_networks p; p_args := p_args p;
  p_env := p_env p; p_publish := p_publish p; p_constraints := p_constraints p;
  p_labels := p_labels p; p_container_labels := p_container_labels p;
  p_mode := p_mode p; p_replicas := p_replicas p;
  p_endpoint_mode := p_endpoint_mode p;
  p_restart_policy := p_restart_policy p;
  p_limit_cpu := p_limit_cpu p; p_limit_memory := p_limit_memory p;
  p_reserve_cpu := p_reserve_cpu p; p_reserve_memory := p_reserve_memory p;
  p_restart_policy_delay := p_restart_policy_delay p;
  p_restart_policy_attempts := p_restart_policy_attempts p;
  p_restart_policy_window := p_restart_policy_window p
|}.

Definition with_mode_replicas (m : string) (n : Z) (p : Params) : Params := {|
  p_name := p_name p; p_image := p_image p; p_state := p_state p;
  p_mounts := p_mounts p; p_networks := p_networks p; p_args := p_args p;
  p_env := p_env p; p_publish := p_publish p; p_constraints := p_constraints p;
  p_labels := p_labels p; p_container_labels := p_container_labels p;
  p_mode := m; p_replicas := n;
  p_endpoint_mode := p_endpoint_mode p;
  p_restart_policy := p_restart_policy p;
  p_limit_cpu := p_limit_cpu p; p_limit_memory := p_limit_memory p;
  p_reserve_cpu := p_reserve_cpu p; p_reserve_memory := p_reserve_memory p;
  p_restart_policy_delay := p_restart_policy_delay p;
  p_restart_policy_attempts := p_restart_policy_attempts p;
  p_restart_policy_window := p_restart_policy_window p
|}.

Definition with_resources (lc : PyFloat.float) (lm : Z) (rc : PyFloat.float) (rm : Z)
  (p : Params) : Params := {|
  p_name := p_name p; p_image := p_image p; p_state := p_state p;
  p_mounts := p_mounts p; p_networks := p_networks p; p_args := p_args p;
  p_env := p_env p; p_publish := p_publish p; p_constraints := p_constraints p;
  p_labels := p_labels p; p_container_labels := p_container_labels p;
  p_mode := p_mode p; p_replicas := p_replicas p;
  p_endpoint_mode := p_endpoint_mode p;
  p_restart_policy := p_restart_policy p;
  p_limit_cpu := lc; p_limit_memory := lm;
  p_reserve_cpu := rc; p_reserve_memory := rm;
  p_restart_policy_delay := p_restart_policy_delay p;
  p_restart_policy_attempts := p_restart_policy_attempts p;
  p_restart_policy_window := p_restart_policy_window p
|}.

(** What the daemon reports for [mydb] once created from [mydb_params]:
    a replicated service with one replica, no networks and no resource
    block. *)
Definition mydb_raw_with (m : Raw.Mode) (res : option Raw.Resources) : Raw.Service := {|
  Raw.ID := "7k2x9q";
  Raw.VersionIndex := 42;
  Raw.spec := {|
    Raw.task_template := {|
      Raw.container_spec := {|
        Raw.Image := "mysql:5.7";
        Raw.Env := None;
        Raw.Args := None;
        Raw.Labels := None;
        Raw.Mounts := Some [ {| Raw.Source := "/swarm_data/mysql_data/";
                                Raw.Type_ := "bind";
                                Raw.Target := "/var/lib/mysql" |} ]
      |};
      Raw.placement := None;
      Raw.resources := res
    |};
    Raw.SpecLabels := None;
    Raw.mode := m;
    Raw.Networks := None
  |};
  Raw.endpoint := Some {|
    Raw.EndpointSpec_ := Some {|
      Raw.EndpointMode := Some "vip";
      Raw.Ports := Some [ {| Raw.Protocol := "tcp";
                             Raw.PublishedPort := 3306;
                             Raw.TargetPort := 3306 |} ]
    |}
  |}
|}.

Definition replicated1 : Raw.Mode := {| Raw.Replicated := Some 1; Raw.Global := false |}.
Definition global_mode : Raw.Mode := {| Raw.Replicated := None; Raw.Global := true |}.

Definition mydb_raw : Raw.Service := mydb_raw_with replicated1 None.

(** A daemon that knows the given services and networks and accepts every
    mutating call. *)
Definition daemon (known : list Raw.Service) (nets : list Raw.Network) : Client := {|
  services := fun _ => Ok known;
  list_networks := Ok nets;
  raises := fun _ => None
|}.

(** One core and 512 MB as limits, half a core and 128 MB as reservations. *)
Definition sized_params : Params :=
  with_resources (PyFloat.of_Z 1) 512 (PyFloat.decimal 1 2) 128 mydb_params.

(** A limit of 2.01 cores and 512 MB, reserved in full. *)
Definition cpu_2_01 : PyFloat.float := PyFloat.decimal 201 100.

Definition fractional_params : Params :=
  with_resources cpu_2_01 512 cpu_2_01 512 mydb_params.

(** The resource block the daemon holds for a service created from
    [fractional_params]. *)
Definition fractional_resources : Raw.Resources :=
  let values := {| Raw.NanoCPUs := Some 2009999999;
                   Raw.MemoryBytes := Some 536870912 |} in
  {| Raw.Limits := Some values; Raw.Reservations := Some values |}.

(** The spec of [mydb] on the network [backend]. *)
Definition backend_params : Params := with_networks ["backend"] mydb_params.


(** The networks of a daemon that knows [backend]. *)
Definition backend_networks : list Raw.Network :=
  [ {| Raw.Name := "backend"; Raw.Id := "n4fz" |} ].

(** The global [mydb] with three replicas declared. *)
Definition global3_params : Params := with_mode_replicas "global" 3 mydb_params.



(** ** Predicates of the statements

    [known], [resolved], [targets] and [cpu_round_trips] read the code; the
    [spec_] predicates follow the words of the specification, for comparison. *)

(** A name is known when some entry of the known networks carries it. *)
Definition known (docker_networks : list NameId) (n : string) : Prop :=
  exists e, e ∈ docker_networks /\ name e = n.

(** A name resolves when the lookup yields an id that passes the
    [if network_id:] test. *)
Definition resolved (docker_networks : list NameId) (n : string) : bool :=
  truthy (find_network_id n docker_networks).

(** The network list of a translation in which every name resolved. *)
Definition targets (docker_networks : list NameId) (names : list string)
  : list Wire.NetworkAttachment :=
  map (fun n => {| Wire.NetTarget := default "" (find_network_id n docker_networks) |})
    names.





(** The order in which [compare_services] tests the fields. *)
Definition field_order : list string :=
  [ "endpoint_mode"; "env"; "mode"; "mounts"; "networks"; "replicas"; "args";
    "constraints"; "labels"; "limit_cpu"; "limit_memory"; "reserve_cpu";
    "reserve_memory"; "container_labels"; "publish" ].

(** The two services agree on every field the differ tests, the floats up
    to [==]. *)
Definition compared_fields_agree (s1 s2 : DockerService) : Prop :=
  endpoint_mode s1 = endpoint_mode s2
  /\ env s1 = env s2
  /\ mode s1 = mode s2
  /\ mounts s1 = mounts s2
  /\ networks s1 = networks s2
  /\ replicas s1 = replicas s2
  /\ args s1 = args s2
  /\ constraints s1 = constraints s2
  /\ labels s1 = labels s2
  /\ PyFloat.eqb (limit_cpu s1) (limit_cpu s2) = true
  /\ limit_memory s1 = limit_memory s2
  /\ PyFloat.eqb (reserve_cpu s1) (reserve_cpu s2) = true
  /\ reserve_memory s1 = reserve_memory s2
  /\ container_labels s1 = container_labels s2
  /\ publish s1 = publish s2.

(** A daemon without services whose network listing fails. *)
Definition no_networks_daemon : Client := {|
  services := fun _ => Ok [];
  list_networks := Raise (APIError "cannot list networks");
  raises := fun _ => None
|}.


(** The shapes of the call log of a run for the service [nm]. *)
Definition call_shape (nm : string) (log : list ApiCall) : Prop :=
  log = []
  \/ (exists d, log = [create_service_call nm d])
  \/ log = [remove_service_call nm]
  \/ (exists i v d, log = [update_service_call i v nm d])
  \/ (exists d, log = [remove_service_call nm; create_service_call nm d]).

(** The [{'Target': id}] dict of a translation as the daemon hands it
    back in the [Networks] of the service. *)
Definition stored_attachment (a : Wire.NetworkAttachment) : Raw.NetworkAttachment :=
  {| Raw.NetTarget := Wire.NetTarget a |}.

(** An attachment of the live service is dangling when no listed network
    has its id. *)
Definition dangling (networks_names_ids : list NameId)
  (a : Raw.NetworkAttachment) : Prop :=
  forall e, e ∈ networks_names_ids -> id e <> Raw.NetTarget a.

(** The failure message of [main] for a lookup that raised [e]. *)
Definition lookup_failure (nm : string) (e : exn) : Outcome :=
  fail_json ("Error looking for service named " +:+ nm +:+ ": " +:+ str_exn e).

(** [mydb] as reported in an unknown mode, and as attached to a network
    the daemon does not list. *)
Definition unknown_mode : Raw.Mode := {| Raw.Replicated := None; Raw.Global := false |}.

Definition mydb_raw_on (targets : list Raw.NetworkAttachment) : Raw.Service := {|
  Raw.ID := Raw.ID mydb_raw;
  Raw.VersionIndex := Raw.VersionIndex mydb_raw;
  Raw.spec := {|
    Raw.task_template := Raw.task_template (Raw.spec mydb_raw);
    Raw.SpecLabels := Raw.SpecLabels (Raw.spec mydb_raw);
    Raw.mode := Raw.mode (Raw.spec mydb_raw);
    Raw.Networks := Some targets
  |};
  Raw.endpoint := Raw.endpoint mydb_raw
|}.




(** * Properties *)

(** ** Comparison helpers *)

Lemma ne_true_iff {A : Type} `{EqDecision A} (x y : A) : ne x y = true <-> x <> y.
Proof.
  unfold ne. destruct (bool_decide_reflect (x = y)); simpl; split; intros; congruence.
Qed.

Lemma ne_same {A : Type} `{EqDecision A} (x : A) : ne x x = false.
Proof.
  unfold ne. rewrite bool_decide_eq_true_2; reflexivity.
Qed.

Lemma SFcompare_same (x : PyFloat.float) :
  PyFloat.is_nan x = false -> SFcompare x x = Some Eq.
Proof.
  destruct x as [s | s | | s m e]; simpl; try discriminate; intros _.
  - destruct s; reflexivity.
  - destruct s; reflexivity.
  - destruct s; rewrite Z.compare_refl, Pos.compare_refl; reflexivity.
Qed.

Lemma float_neb_same (x : PyFloat.float) :
  PyFloat.is_nan x = false -> PyFloat.neb x x = false.
Proof.
  intros H. unfold PyFloat.neb, SFeqb. rewrite (SFcompare_same x H). reflexivity.
Qed.

(** ** The differ *)

(** The recreate flag is exactly the outcome of the [networks] test. *)
Lemma need_recreate_networks (s1 s2 : DockerService) :
  need_recreate (compare_services s1 s2) = ne (networks s1) (networks s2).
Proof.
  unfold compare_services; simpl.
  destruct (ne (networks s1) (networks s2)); reflexivity.
Qed.

(** C2. The recreate flag of the differ is true if and only if the two
    [networks] lists differ: two specs that differ in [networks] need a
    recreate, whatever else differs, and two specs with the same [networks]
    never do. *)
Theorem need_recreate_iff_networks_differ (s1 s2 : DockerService) :
  need_recreate (compare_services s1 s2) = true <-> networks s1 <> networks s2.
Proof.
  rewrite need_recreate_networks. apply ne_true_iff.
Qed.

(** The differ reads neither [image] nor any restart-policy field nor the
    identity fields: two first arguments that agree on the fifteen fields it
    tests give the same result. *)
Lemma compare_services_reads (s1 s1' s2 : DockerService) :
  endpoint_mode s1 = endpoint_mode s1' -> env s1 = env s1' ->
  mode s1 = mode s1' -> mounts s1 = mounts s1' ->
  networks s1 = networks s1' -> replicas s1 = replicas s1' ->
  args s1 = args s1' -> constraints s1 = constraints s1' ->
  labels s1 = labels s1' -> limit_cpu s1 = limit_cpu s1' ->
  limit_memory s1 = limit_memory s1' -> reserve_cpu s1 = reserve_cpu s1' ->
  reserve_memory s1 = reserve_memory s1' ->
  container_labels s1 = container_labels s1' -> publish s1 = publish s1' ->
  compare_services s1 s2 = compare_services s1' s2.
Proof.
  intros. unfold compare_services.
  repeat match goal with H : _ = _ |- _ => rewrite H; clear H end.
  reflexivity.
Qed.

(** C7, as the code has it. A spec whose [limit_cpu] and [reserve_cpu] are
    not NaN compared with itself gives no change: [changed] is false, the
    list of changed fields is empty and no recreate is needed. *)
Theorem compare_services_same (s : DockerService) :
  PyFloat.is_nan (limit_cpu s) = false ->
  PyFloat.is_nan (reserve_cpu s) = false ->
  compare_services s s
  = {| changed := false; changes := []; need_recreate := false |}.
Proof.
  intros Hl Hr. unfold compare_services.
  rewrite !ne_same, (float_neb_same _ Hl), (float_neb_same _ Hr).
  reflexivity.
Qed.

Lemma compare_services_same_witness :
  compare_services (service_from_params mydb_params) (service_from_params mydb_params)
  = {| changed := false; changes := []; need_recreate := false |}.
Proof.
  apply (compare_services_same (service_from_params mydb_params)); reflexivity.
Defined.

(** C7, as stated, fails: a spec whose [limit_cpu] is NaN differs from
    itself, since [nan != nan] holds. *)
Lemma compare_services_same_nan :
  ~ (forall s : DockerService,
       compare_services s s
       = {| changed := false; changes := []; need_recreate := false |}).
Proof.
  intros H.
  specialize (H (service_from_params
                   (with_resources PyFloat.nan 0 (PyFloat.of_Z 0) 0 mydb_params))).
  vm_compute in H. discriminate H.
Qed.

(** C1 at the example of the module: the declared restart policy goes from
    [any] to [on-failure] and nothing else changes. The differ reports no
    change, where the claim has [changed] with [restart_policy] as the only
    changed field; and the run against the daemon ends in "service
    unchanged" with no call, where the claim has an update and "service
    edited (changes: restart_policy)". *)
Theorem restart_policy_change_unnoticed :
  let actual := service_from_params mydb_params in
  let desired := service_from_params (with_restart_policy "on-failure" mydb_params) in
  restart_policy actual = Some "any"
  /\ restart_policy desired = Some "on-failure"
  /\ compare_services actual desired
     = {| changed := false; changes := []; need_recreate := false |}
  /\ main (daemon [mydb_raw] []) false (with_restart_policy "on-failure" mydb_params)
     = (exit_json "service unchanged" false, []).
Proof.
  cbv zeta. split; [| split; [| split]]; vm_compute; reflexivity.
Qed.

(** C9 at two global services that differ in [replicas] only: the differ
    reports [replicas] as changed, where the claim has no change; and the
    run against a daemon that reports the service in global mode asks for an
    update. *)
Theorem replicas_compared_in_global_mode :
  let actual := service_from_params (with_mode_replicas "global" 1 mydb_params) in
  let desired := service_from_params (with_mode_replicas "global" 3 mydb_params) in
  mode actual = "global" /\ mode desired = "global"
  /\ compare_services actual desired
     = {| changed := true; changes := ["replicas"]; need_recreate := false |}
  /\ fst (main (daemon [mydb_raw_with global_mode None] []) false
            (with_mode_replicas "global" 3 mydb_params))
     = exit_json "service edited (changes: replicas)" true.
Proof.
  cbv zeta. split; [| split; [| split]]; vm_compute; reflexivity.
Qed.

(** ** The translator: resources *)


(** C3 at [sized_params]: the reservations sent are those of the limits,
    one core and 512 MB, where the claim has half a core and 128 MB, the
    values of the reserve fields. *)
Theorem reservations_taken_from_limits :
  exists d,
    generate_docker_py_service_description (service_from_params sized_params) "mydb" []
    = Ok d
    /\ Wire.Reservations (Wire.resources (Wire.task_template d))
       = {| Wire.NanoCPUs := 1000000000; Wire.MemoryBytes := 536870912 |}
    /\ nano_cpus (reserve_cpu (service_from_params sized_params)) = Ok 500000000
    /\ reserve_memory (service_from_params sized_params) * 1024 * 1024 = 134217728.
Proof.
  destruct (generate_docker_py_service_description
              (service_from_params sized_params) "mydb" []) as [d | e] eqn:E;
    vm_compute in E; [| discriminate E].
  exists d. injection E as <-.
  split; [| split; [| split]]; vm_compute; reflexivity.
Qed.

(** C5 at a limit of 2.01 cores: the product [2.01*1000000000] is the
    float just below 2010000000, [int] truncates it to 2009999999, and
    rounding gives 2010000000. The memory half of the claim holds. *)
Theorem limit_cpu_truncated_not_rounded :
  exists d,
    generate_docker_py_service_description (service_from_params fractional_params)
      "mydb" [] = Ok d
    /\ Wire.NanoCPUs (Wire.Limits (Wire.resources (Wire.task_template d)))
       = 2009999999
    /\ PyFloat.round (PyFloat.mul cpu_2_01 (PyFloat.of_Z 1000000000))
       = Some 2010000000
    /\ Wire.MemoryBytes (Wire.Limits (Wire.resources (Wire.task_template d)))
       = 512 * 1024 * 1024.
Proof.
  destruct (generate_docker_py_service_description
              (service_from_params fractional_params) "mydb" []) as [d | e] eqn:E;
    vm_compute in E; [| discriminate E].
  exists d. injection E as <-.
  split; [| split; [| split]]; vm_compute; reflexivity.
Qed.

(** ** The fetcher: units *)


(** The truncation across two runs, at a limit of 2.01 cores: translation
    sends 2009999999 nano CPUs, normalization reads them back as a float
    that differs from 2.01, and the next run over the service so created
    reports a change of [limit_cpu] and asks for an update. *)
Lemma limit_cpu_round_trip_lost :
  nano_cpus cpu_2_01 = Ok 2009999999
  /\ (exists cpu, cpu_of_nano 2009999999 = Ok cpu /\ PyFloat.neb cpu cpu_2_01 = true)
  /\ mb_of_bytes (512 * 1024 * 1024) = 512
  /\ fst (main (daemon [mydb_raw_with replicated1 (Some fractional_resources)] [])
            false fractional_params)
     = exit_json "service edited (changes: limit_cpu,reserve_cpu)" true.
Proof.
  split; [vm_compute; reflexivity |].
  split.
  - destruct (cpu_of_nano 2009999999) as [cpu | e] eqn:E;
      vm_compute in E; [| discriminate E].
    exists cpu. injection E as <-. split; vm_compute; reflexivity.
  - split; vm_compute; reflexivity.
Qed.









(** ** The translator: networks *)

Lemma find_network_id_Some (n i : string) (docker_networks : list NameId) :
  find_network_id n docker_networks = Some i ->
  exists e, e ∈ docker_networks /\ name e = n /\ id e = i.
Proof.
  unfold find_network_id.
  destruct (filter (fun e => name e = n) docker_networks) as [| e l] eqn:E;
    [discriminate |].
  intros H. injection H as <-.
  assert (He : e ∈ filter (fun e => name e = n) docker_networks)
    by (rewrite E; left).
  apply list_elem_of_filter in He as [Hn Hin].
  exists e. auto.
Qed.




(** The loop succeeds exactly on lists of resolved names, with one target
    per name appended in order. *)
Lemma resolve_networks_all (names : list string) (docker_networks : list NameId)
  (acc : list Wire.NetworkAttachment) :
  Forall (fun n => resolved docker_networks n = true) names ->
  resolve_networks names docker_networks acc
  = Ok (acc ++ targets docker_networks names).
Proof.
  intros H. revert acc.
  induction H as [| n names Hn _ IH]; intros acc; simpl.
  - rewrite app_nil_r. reflexivity.
  - unfold resolved in Hn. rewrite Hn, IH, <- app_assoc. reflexivity.
Qed.





(** ** The convergence driver *)

(** A guarded body in check mode is skipped: the outcome is reported and
    the log stays empty. *)
Lemma skipped_in_check_mode (body : Run unit) (o : Outcome) :
  finish ((_ <~ unless true body ;; ret o) []) = (o, []).
Proof. reflexivity. Qed.

(** Outside check mode the body runs, and the outcome is reported unless
    the body raises. *)
Lemma reported_unless_raised (body : Run unit) (o : Outcome) :
  fst (finish ((_ <~ unless false body ;; ret o) [])) = o
  \/ exists e, fst (finish ((_ <~ unless false body ;; ret o) [])) = uncaught e.
Proof.
  unfold bindR, unless, ret, finish.
  destruct (body []) as [[u | e] log]; simpl; eauto.
Qed.




(** The five actions against a daemon that accepts every call: the two runs
    report the same, and the real run issues the calls of the action. *)
Lemma check_mode_on_each_action :
  (* absent, absent: nothing to do *)
  (forall cm, main (daemon [] []) cm (with_state "absent" mydb_params)
              = (exit_json "service already absent" false, []))
  (* absent, present: create *)
  /\ main (daemon [] []) true mydb_params = (exit_json "service created" true, [])
  /\ fst (main (daemon [] []) false mydb_params) = exit_json "service created" true
  /\ length (snd (main (daemon [] []) false mydb_params)) = 1%nat
  (* present, absent: remove *)
  /\ main (daemon [mydb_raw] []) true (with_state "absent" mydb_params)
     = (exit_json "service removed" true, [])
  /\ main (daemon [mydb_raw] []) false (with_state "absent" mydb_params)
     = (exit_json "service removed" true, [remove_service_call "mydb"])
  (* present, present, unchanged *)
  /\ (forall cm, main (daemon [mydb_raw] []) cm mydb_params
                 = (exit_json "service unchanged" false, []))
  (* present, present, changed in place: update *)
  /\ main (daemon [mydb_raw_with global_mode None] []) true global3_params
     = (exit_json "service edited (changes: replicas)" true, [])
  /\ fst (main (daemon [mydb_raw_with global_mode None] []) false global3_params)
     = exit_json "service edited (changes: replicas)" true
  /\ length (snd (main (daemon [mydb_raw_with global_mode None] []) false
                    global3_params)) = 1%nat
  (* present, present, networks changed: remove and create *)
  /\ main (daemon [mydb_raw] backend_networks) true backend_params
     = (exit_json "rebuild service (changes: networks)" true, [])
  /\ fst (main (daemon [mydb_raw] backend_networks) false backend_params)
     = exit_json "rebuild service (changes: networks)" true
  /\ (exists description,
        snd (main (daemon [mydb_raw] backend_networks) false backend_params)
        = [remove_service_call "mydb"; create_service_call "mydb" description]).
Proof.
  split; [intros []; vm_compute; reflexivity |].
  do 5 (split; [vm_compute; reflexivity |]).
  split; [intros []; vm_compute; reflexivity |].
  do 5 (split; [vm_compute; reflexivity |]).
  destruct (snd (main (daemon [mydb_raw] backend_networks) false backend_params))
    as [| c1 [| c2 [| c3 l]]] eqn:E; vm_compute in E; try discriminate E.
  destruct c2 as [| nm description |]; try discriminate E.
  exists description. injection E as <- <- <-. reflexivity.
Qed.

(** ** Identity of the fetched service *)

Lemma service_of_raw_identity (raw_data : Raw.Service)
  (networks_names_ids : list NameId) (ds : DockerService) :
  service_of_raw raw_data networks_names_ids = Ok ds ->
  service_id ds = Some (Raw.ID raw_data)
  /\ service_version ds = Some (Raw.VersionIndex raw_data).
Proof.
  unfold service_of_raw.
  repeat match goal with
         | |- context [bind ?r _] =>
             destruct r; simpl; [| discriminate]
         end.
  intros H. injection H as <-. split; reflexivity.
Qed.

Lemma get_service_identity (dc : Client) (nm : string) (raw_data : Raw.Service)
  (rest : list Raw.Service) (current_service : DockerService) :
  services dc nm = Ok (raw_data :: rest) ->
  get_service dc nm = Ok (Some current_service) ->
  service_id current_service = Some (Raw.ID raw_data)
  /\ service_version current_service = Some (Raw.VersionIndex raw_data).
Proof.
  intros Hs. unfold get_service. rewrite Hs; simpl.
  destruct (get_networks_names_ids dc) as [nn | e]; simpl; [| discriminate].
  destruct (service_of_raw raw_data nn) as [ds | e] eqn:E; simpl; [| discriminate].
  intros H. injection H as <-. exact (service_of_raw_identity _ _ _ E).
Qed.

(** C8. When the driver takes the update action (the service exists, it is
    wanted present, the differ reports a change that needs no recreate, the
    run is not a dry run and the translation succeeds), the one call it
    issues is the update, and it carries the id and the version index of
    the record the daemon returned, as the fetched service holds them. *)
Theorem update_carries_fetched_identity (dc : Client) (params : Params)
  (raw_data : Raw.Service) (rest : list Raw.Service)
  (current_service : DockerService) (docker_networks : list NameId)
  (description : Wire.Description) :
  services dc (p_name params) = Ok (raw_data :: rest) ->
  get_service dc (p_name params) = Ok (Some current_service) ->
  p_state params <> "absent" ->
  changed (compare_services current_service (service_from_params params)) = true ->
  need_recreate (compare_services current_service (service_from_params params)) = false ->
  get_networks_names_ids dc = Ok docker_networks ->
  generate_docker_py_service_description (service_from_params params)
    (p_name params) docker_networks = Ok description ->
  service_id current_service = Some (Raw.ID raw_data)
  /\ service_version current_service = Some (Raw.VersionIndex raw_data)
  /\ snd (main dc false params)
     = [ update_service_call (Some (Raw.ID raw_data))
           (Some (Raw.VersionIndex raw_data)) (p_name params) description ].
Proof.
  intros Hs Hget Hstate Hch Hre Hnets Hgen.
  destruct (get_service_identity _ _ _ _ _ Hs Hget) as [Hid Hver].
  split; [exact Hid |]. split; [exact Hver |].
  unfold main. rewrite Hget. unfold converge.
  rewrite (bool_decide_eq_false_2 _ Hstate), Hch, Hre.
  unfold unless, update_service, bindR, lift, issue, ret, finish.
  rewrite Hnets; simpl. rewrite Hgen, Hid, Hver.
  match goal with |- context [raises dc ?c] => destruct (raises dc c) end;
    reflexivity.
Qed.

Lemma update_carries_fetched_identity_witness :
  exists description,
    snd (main (daemon [mydb_raw_with global_mode None] []) false global3_params)
    = [ update_service_call (Some "7k2x9q") (Some 42) "mydb" description ].
Proof.
  destruct (get_service (daemon [mydb_raw_with global_mode None] []) "mydb")
    as [[current_service |] | e] eqn:G; vm_compute in G; try discriminate G.
  destruct (generate_docker_py_service_description
              (service_from_params global3_params) "mydb" [])
    as [description | e] eqn:D; vm_compute in D; [| discriminate D].
  exists description.
  apply (update_carries_fetched_identity
           (daemon [mydb_raw_with global_mode None] []) global3_params
           (mydb_raw_with global_mode None) [] current_service [] description).
  - reflexivity.
  - rewrite <- G. vm_compute. reflexivity.
  - discriminate.
  - injection G as <-. vm_compute. reflexivity.
  - injection G as <-. vm_compute. reflexivity.
  - reflexivity.
  - rewrite <- D. vm_compute. reflexivity.
Defined.

(** * Further properties of the differ *)

Lemma append_if_app (c : bool) (f : string) (l : list string) :
  append_if c f l = l ++ (if c then [f] else []).
Proof. destruct c; simpl; [reflexivity | rewrite app_nil_r; reflexivity]. Qed.

Lemma ne_false_iff {A : Type} `{EqDecision A} (x y : A) : ne x y = false <-> x = y.
Proof.
  unfold ne. destruct (bool_decide_reflect (x = y)); simpl; split; intros; congruence.
Qed.

Lemma ne_sym {A : Type} `{EqDecision A} (x y : A) : ne x y = ne y x.
Proof.
  destruct (ne y x) eqn:E.
  - apply (proj2 (ne_true_iff x y)). apply (proj1 (ne_true_iff y x)) in E.
    intros H'. apply E. symmetry. exact H'.
  - apply (proj2 (ne_false_iff x y)). apply (proj1 (ne_false_iff y x)) in E.
    symmetry. exact E.
Qed.

Lemma SFcompare_swap (x y : PyFloat.float) :
  SFcompare y x = option_map CompOpp (SFcompare x y).
Proof.
  destruct x as [s1 | s1 | | s1 m1 e1], y as [s2 | s2 | | s2 m2 e2]; simpl;
    try reflexivity; try (destruct s1, s2; reflexivity);
    try (destruct s1; reflexivity); try (destruct s2; reflexivity).
  change (Pos.compare_cont Eq m2 m1) with (m2 ?= m1)%positive.
  change (Pos.compare_cont Eq m1 m2) with (m1 ?= m2)%positive.
  rewrite (Z.compare_antisym e1 e2), (Pos.compare_antisym m1 m2).
  destruct s1, s2; simpl; try reflexivity;
    destruct (e1 ?= e2); simpl; try reflexivity;
    destruct (m1 ?= m2)%positive; reflexivity.
Qed.

Lemma float_neb_sym (x y : PyFloat.float) : PyFloat.neb x y = PyFloat.neb y x.
Proof.
  unfold PyFloat.neb, SFeqb. rewrite (SFcompare_swap x y).
  destruct (SFcompare x y) as [[] |]; reflexivity.
Qed.

(** The list of changed fields, test by test. *)
Lemma changes_by_test (s1 s2 : DockerService) :
  changes (compare_services s1 s2)
  = (if ne (endpoint_mode s1) (endpoint_mode s2) then ["endpoint_mode"] else [])
    ++ (if ne (env s1) (env s2) then ["env"] else [])
    ++ (if ne (mode s1) (mode s2) then ["mode"] else [])
    ++ (if ne (mounts s1) (mounts s2) then ["mounts"] else [])
    ++ (if ne (networks s1) (networks s2) then ["networks"] else [])
    ++ (if ne (replicas s1) (replicas s2) then ["replicas"] else [])
    ++ (if ne (args s1) (args s2) then ["args"] else [])
    ++ (if ne (constraints s1) (constraints s2) then ["constraints"] else [])
    ++ (if ne (labels s1) (labels s2) then ["labels"] else [])
    ++ (if PyFloat.neb (limit_cpu s1) (limit_cpu s2) then ["limit_cpu"] else [])
    ++ (if ne (limit_memory s1) (limit_memory s2) then ["limit_memory"] else [])
    ++ (if PyFloat.neb (reserve_cpu s1) (reserve_cpu s2) then ["reserve_cpu"] else [])
    ++ (if ne (reserve_memory s1) (reserve_memory s2) then ["reserve_memory"] else [])
    ++ (if ne (container_labels s1) (container_labels s2)
        then ["container_labels"] else [])
    ++ (if ne (publish s1) (publish s2) then ["publish"] else []).
Proof.
  unfold compare_services; simpl.
  rewrite !append_if_app, <- !app_assoc. reflexivity.
Qed.

Lemma changed_false_iff (s1 s2 : DockerService) :
  changed (compare_services s1 s2) = false <-> changes (compare_services s1 s2) = [].
Proof.
  change (changed (compare_services s1 s2))
    with (0 <? length (changes (compare_services s1 s2)))%nat.
  destruct (changes (compare_services s1 s2)); simpl; split; intros H;
    try reflexivity; discriminate H.
Qed.

Lemma singleton_if_nil (c : bool) (f : string) (l : list string) :
  (if c then [f] else []) ++ l = [] <-> c = false /\ l = [].
Proof.
  destruct c; simpl; split; try discriminate; try tauto.
  intros [H _]. discriminate H.
Qed.

Lemma changed_false_fields (s1 s2 : DockerService) :
  changed (compare_services s1 s2) = false <-> compared_fields_agree s1 s2.
Proof.
  rewrite changed_false_iff, changes_by_test. unfold compared_fields_agree.
  rewrite !singleton_if_nil, !ne_false_iff.
  unfold PyFloat.neb, PyFloat.eqb. rewrite !negb_false_iff.
  assert (Hlast : (if ne (publish s1) (publish s2) then ["publish"] else []) = []
                  <-> publish s1 = publish s2).
  { rewrite <- (ne_false_iff (publish s1) (publish s2)).
    destruct (ne (publish s1) (publish s2)); split; intros H;
      try reflexivity; discriminate H. }
  rewrite Hlast. tauto.
Qed.

(** X1. The differ reports no change exactly when the two services agree
    on the fifteen fields it tests, floats compared with [==]. *)
Theorem unchanged_iff_compared_fields_agree (s1 s2 : DockerService) :
  changed (compare_services s1 s2) = false <-> compared_fields_agree s1 s2.
Proof. exact (changed_false_fields s1 s2). Qed.

(** X2. The changed fields are reported in the order of the tests, each at
    most once: the list is a sublist of [field_order]. *)
Theorem changes_in_field_order (s1 s2 : DockerService) :
  changes (compare_services s1 s2) `sublist_of` field_order.
Proof.
  rewrite changes_by_test.
  change field_order with
    (["endpoint_mode"] ++ ["env"] ++ ["mode"] ++ ["mounts"] ++ ["networks"]
     ++ ["replicas"] ++ ["args"] ++ ["constraints"] ++ ["labels"] ++ ["limit_cpu"]
     ++ ["limit_memory"] ++ ["reserve_cpu"] ++ ["reserve_memory"]
     ++ ["container_labels"] ++ ["publish"]).
  repeat apply sublist_app;
    match goal with |- (if ?c then _ else _) `sublist_of` _ =>
      destruct c; [reflexivity | apply sublist_nil_l] end.
Qed.

Lemma recreate_is_change (s1 s2 : DockerService) :
  need_recreate (compare_services s1 s2) = true ->
  changed (compare_services s1 s2) = true
  /\ "networks" ∈ changes (compare_services s1 s2).
Proof.
  rewrite need_recreate_networks. intros Hn.
  assert (Hin : "networks" ∈ changes (compare_services s1 s2)).
  { rewrite changes_by_test, Hn.
    do 4 (apply elem_of_app; right).
    apply elem_of_app; left. left. }
  split; [| exact Hin].
  destruct (changed (compare_services s1 s2)) eqn:E; [reflexivity |].
  apply changed_false_iff in E. rewrite E in Hin. inversion Hin.
Qed.

(** X3. A recreate is never asked for without a reported change: when the
    recreate flag is set, [changed] is set and [networks] is among the
    changed fields. *)
Theorem need_recreate_implies_changed (s1 s2 : DockerService) :
  need_recreate (compare_services s1 s2) = true ->
  changed (compare_services s1 s2) = true
  /\ "networks" ∈ changes (compare_services s1 s2).
Proof. exact (recreate_is_change s1 s2). Qed.

Lemma need_recreate_implies_changed_witness :
  changed (compare_services (service_from_params mydb_params)
             (service_from_params backend_params)) = true
  /\ "networks" ∈ changes (compare_services (service_from_params mydb_params)
                             (service_from_params backend_params)).
Proof.
  apply (need_recreate_implies_changed (service_from_params mydb_params)
           (service_from_params backend_params)).
  vm_compute. reflexivity.
Defined.

(** X4. The differ is symmetric: swapping actual and desired gives the same
    flags and the same changed fields. *)
Theorem compare_services_sym (s1 s2 : DockerService) :
  compare_services s1 s2 = compare_services s2 s1.
Proof.
  unfold compare_services.
  rewrite (ne_sym (endpoint_mode s1)), (ne_sym (env s1)), (ne_sym (mode s1)),
    (ne_sym (mounts s1)), (ne_sym (networks s1)), (ne_sym (replicas s1)),
    (ne_sym (args s1)), (ne_sym (constraints s1)), (ne_sym (labels s1)),
    (float_neb_sym (limit_cpu s1)), (ne_sym (limit_memory s1)),
    (float_neb_sym (reserve_cpu s1)), (ne_sym (reserve_memory s1)),
    (ne_sym (container_labels s1)), (ne_sym (publish s1)).
  reflexivity.
Qed.

(** * Further properties of the driver *)

(** X5. No service and [state=absent]: the run reports "service already
    absent", unchanged, and issues no call, in check mode or not; the
    networks are not even listed, so a failing network listing does not
    matter. *)
Theorem absent_absent_no_op (dc : Client) (cm : bool) (params : Params) :
  services dc (p_name params) = Ok [] ->
  p_state params = "absent" ->
  main dc cm params = (exit_json "service already absent" false, []).
Proof.
  intros Hs Hst. unfold main, get_service. rewrite Hs; simpl.
  unfold converge. rewrite (bool_decide_eq_true_2 _ Hst). reflexivity.
Qed.

Lemma absent_absent_no_op_witness :
  main no_networks_daemon false (with_state "absent" mydb_params)
  = (exit_json "service already absent" false, []).
Proof.
  apply (absent_absent_no_op no_networks_daemon false
           (with_state "absent" mydb_params)); reflexivity.
Defined.

(** X6. Whatever the daemon answers, a run issues no call, one create, one
    remove, one update, or a remove followed by a create, and every call is
    for the declared name. *)
Theorem main_call_shape (dc : Client) (cm : bool) (params : Params) :
  call_shape (p_name params) (snd (main dc cm params)).
Proof.
  unfold call_shape, main.
  destruct (get_service dc (p_name params)) as [current_service | e]; simpl;
    [| left; reflexivity].
  unfold converge, unless, update_service, create_service, remove_service,
    bindR, lift, issue, ret, finish.
  destruct current_service as [current_service |];
    destruct (bool_decide (p_state params = "absent"));
    try destruct (changed (compare_services current_service
                             (service_from_params params)));
    try destruct (need_recreate (compare_services current_service
                                   (service_from_params params)));
    destruct cm; simpl; try (left; reflexivity);
    repeat match goal with
           | |- context [raises dc ?c] => destruct (raises dc c); simpl
           | |- context [get_networks_names_ids dc] =>
               destruct (get_networks_names_ids dc); simpl
           | |- context [generate_docker_py_service_description ?s ?n ?l] =>
               destruct (generate_docker_py_service_description s n l); simpl
           end;
    eauto 10.
Qed.



(** X8. A service that exists, is declared present and agrees with the
    declared spec on the compared fields is left alone: "service
    unchanged", no call, in check mode or not. *)
Theorem present_unchanged_no_op (dc : Client) (cm : bool) (params : Params)
  (current_service : DockerService) :
  get_service dc (p_name params) = Ok (Some current_service) ->
  p_state params <> "absent" ->
  compared_fields_agree current_service (service_from_params params) ->
  main dc cm params = (exit_json "service unchanged" false, []).
Proof.
  intros Hget Hst Hag. unfold main. rewrite Hget. unfold converge.
  rewrite (bool_decide_eq_false_2 _ Hst).
  apply changed_false_fields in Hag. rewrite Hag. reflexivity.
Qed.

Lemma present_unchanged_no_op_witness :
  main (daemon [mydb_raw] []) false mydb_params
  = (exit_json "service unchanged" false, []).
Proof.
  destruct (get_service (daemon [mydb_raw] []) "mydb")
    as [[current_service |] | e] eqn:G; vm_compute in G; try discriminate G.
  apply (present_unchanged_no_op (daemon [mydb_raw] []) false mydb_params
           current_service).
  - rewrite <- G. vm_compute. reflexivity.
  - discriminate.
  - injection G as <-. vm_compute. repeat split.
Defined.

(** X9. A rebuild removes the service before it translates the declared
    spec: when the networks changed and the translation fails, the run has
    issued the remove, issues no create, and ends in the exception of the
    translation. *)
Theorem rebuild_removes_before_translating (dc : Client) (params : Params)
  (current_service : DockerService) (docker_networks : list NameId) (e : exn) :
  get_service dc (p_name params) = Ok (Some current_service) ->
  p_state params <> "absent" ->
  networks current_service <> p_networks params ->
  raises dc (remove_service_call (p_name params)) = None ->
  get_networks_names_ids dc = Ok docker_networks ->
  generate_docker_py_service_description (service_from_params params)
    (p_name params) docker_networks = Raise e ->
  main dc false params = (uncaught e, [remove_service_call (p_name params)]).
Proof.
  intros Hget Hst Hn Hr Hnets Hgen.
  assert (Hre : need_recreate (compare_services current_service
                                 (service_from_params params)) = true)
    by (rewrite need_recreate_networks; apply (proj2 (ne_true_iff _ _)); exact Hn).
  destruct (recreate_is_change _ _ Hre) as [Hch _].
  unfold main. rewrite Hget. unfold converge.
  rewrite (bool_decide_eq_false_2 _ Hst), Hch, Hre.
  unfold unless, remove_service, create_service, bindR, lift, issue, ret, finish.
  rewrite Hr; simpl. rewrite Hnets; simpl. rewrite Hgen. reflexivity.
Qed.

Lemma rebuild_removes_before_translating_witness :
  main (daemon [mydb_raw] []) false backend_params
  = (uncaught (Exception "no docker networks named: backend"),
     [remove_service_call "mydb"]).
Proof.
  destruct (get_service (daemon [mydb_raw] []) "mydb")
    as [[current_service |] | e] eqn:G; vm_compute in G; try discriminate G.
  apply (rebuild_removes_before_translating (daemon [mydb_raw] []) backend_params
           current_service []).
  - rewrite <- G. vm_compute. reflexivity.
  - discriminate.
  - injection G as <-. discriminate.
  - reflexivity.
  - reflexivity.
  - vm_compute. reflexivity.
Defined.

(** X10. No service and a declared spec that translates: the real run
    issues exactly the create call with the translation and reports
    "service created". *)
Theorem absent_present_creates (dc : Client) (params : Params)
  (docker_networks : list NameId) (description : Wire.Description) :
  services dc (p_name params) = Ok [] ->
  p_state params <> "absent" ->
  get_networks_names_ids dc = Ok docker_networks ->
  generate_docker_py_service_description (service_from_params params)
    (p_name params) docker_networks = Ok description ->
  raises dc (create_service_call (p_name params) description) = None ->
  main dc false params
  = (exit_json "service created" true,
     [create_service_call (p_name params) description]).
Proof.
  intros Hs Hst Hnets Hgen Hr. unfold main, get_service. rewrite Hs; simpl.
  unfold converge. rewrite (bool_decide_eq_false_2 _ Hst).
  unfold unless, create_service, bindR, lift, issue, ret, finish.
  rewrite Hnets; simpl. rewrite Hgen, Hr. reflexivity.
Qed.

Lemma absent_present_creates_witness :
  exists description,
    main (daemon [] backend_networks) false backend_params
    = (exit_json "service created" true,
       [create_service_call "mydb" description]).
Proof.
  destruct (generate_docker_py_service_description
              (service_from_params backend_params) "mydb"
              [ {| name := "backend"; id := "n4fz" |} ])
    as [description | e] eqn:D; [| vm_compute in D; discriminate D].
  exists description.
  apply (absent_present_creates (daemon [] backend_networks) backend_params
           [ {| name := "backend"; id := "n4fz" |} ] description).
  - reflexivity.
  - discriminate.
  - reflexivity.
  - exact D.
  - reflexivity.
Defined.

(** * Further properties of the fetcher and the translator *)

Lemma get_service_failure_aborts (dc : Client) (cm : bool) (params : Params)
  (e : exn) :
  get_service dc (p_name params) = Raise e ->
  main dc cm params = (lookup_failure (p_name params) e, []).
Proof. intros H. unfold main. rewrite H. reflexivity. Qed.

Lemma network_names_dangling (networks_names_ids : list NameId)
  (raw : list Raw.NetworkAttachment) (acc : list string) :
  Exists (dangling networks_names_ids) raw ->
  network_names networks_names_ids raw acc
  = Raise (IndexError "list index out of range").
Proof.
  intros H. revert acc. induction H as [a l Ha | a l _ IH]; intros acc; simpl.
  - unfold network_name_of_id.
    destruct (filter (fun n => id n = Raw.NetTarget a) networks_names_ids)
      as [| e l'] eqn:E; [reflexivity |].
    exfalso.
    assert (He : e ∈ filter (fun n => id n = Raw.NetTarget a) networks_names_ids)
      by (rewrite E; left).
    apply list_elem_of_filter in He as [Hid Hin]. exact (Ha e Hin Hid).
  - destruct (network_name_of_id networks_names_ids (Raw.NetTarget a))
      as [nm | e] eqn:E; simpl.
    + apply IH.
    + unfold network_name_of_id in E.
      destruct (filter _ networks_names_ids); [| discriminate E].
      injection E as <-. reflexivity.
Qed.

Lemma network_names_sound (networks_names_ids : list NameId)
  (raw : list Raw.NetworkAttachment) (acc r : list string) :
  network_names networks_names_ids raw acc = Ok r ->
  exists names,
    r = acc ++ names
    /\ Forall2 (fun nm a => exists e, e ∈ networks_names_ids
                              /\ id e = Raw.NetTarget a /\ name e = nm)
         names raw.
Proof.
  revert acc. induction raw as [| a raw IH]; intros acc; simpl.
  - intros H. injection H as <-. exists []. rewrite app_nil_r. split; constructor.
  - unfold network_name_of_id at 1.
    destruct (filter (fun n => id n = Raw.NetTarget a) networks_names_ids)
      as [| e l'] eqn:E; simpl; [discriminate |].
    intros H. destruct (IH _ H) as (names & -> & HF).
    exists (name e :: names). rewrite <- app_assoc. split; [reflexivity |].
    constructor; [| exact HF].
    assert (He : e ∈ filter (fun n => id n = Raw.NetTarget a) networks_names_ids)
      by (rewrite E; left).
    apply list_elem_of_filter in He as [Hid Hin]. exists e. auto.
Qed.

Lemma service_of_raw_dangling (raw_data : Raw.Service)
  (networks_names_ids : list NameId) :
  Exists (dangling networks_names_ids)
    (default [] (Raw.Networks (Raw.spec raw_data))) ->
  exists e, service_of_raw raw_data networks_names_ids = Raise e.
Proof.
  intros Hd. unfold service_of_raw.
  repeat match goal with
         | |- context [bind ?r _] =>
             lazymatch r with
             | network_names _ _ _ => fail
             | _ => destruct r; simpl; [| eexists; reflexivity]
             end
         end.
  rewrite (network_names_dangling _ _ _ Hd); simpl. eexists; reflexivity.
Qed.

Lemma service_of_raw_unknown_mode (raw_data : Raw.Service)
  (networks_names_ids : list NameId) :
  Raw.Replicated (Raw.mode (Raw.spec raw_data)) = None ->
  Raw.Global (Raw.mode (Raw.spec raw_data)) = false ->
  exists e, service_of_raw raw_data networks_names_ids = Raise e.
Proof.
  intros Hr Hg. unfold service_of_raw. rewrite Hr, Hg.
  repeat match goal with
         | |- context [bind (fetched_cpu ?v ?d) _] =>
             destruct (fetched_cpu v d); simpl; [| eexists; reflexivity]
         end.
  eexists; reflexivity.
Qed.

(** X11. A live service attached to a network that the daemon does not
    list makes the lookup fail: the run ends in the lookup failure and
    issues no call, in check mode or not. *)
Theorem dangling_network_aborts (dc : Client) (params : Params)
  (raw_data : Raw.Service) (rest : list Raw.Service)
  (networks_names_ids : list NameId) :
  services dc (p_name params) = Ok (raw_data :: rest) ->
  get_networks_names_ids dc = Ok networks_names_ids ->
  Exists (dangling networks_names_ids)
    (default [] (Raw.Networks (Raw.spec raw_data))) ->
  exists e, forall cm,
    main dc cm params = (lookup_failure (p_name params) e, []).
Proof.
  intros Hs Hn Hd.
  destruct (service_of_raw_dangling raw_data _ Hd) as [e He].
  exists e. intros cm. apply get_service_failure_aborts.
  unfold get_service. rewrite Hs; simpl. rewrite Hn; simpl. rewrite He.
  reflexivity.
Qed.

Lemma dangling_network_aborts_witness :
  exists e, forall cm,
    main (daemon [mydb_raw_on [ {| Raw.NetTarget := "gone" |} ]] backend_networks)
      cm mydb_params
    = (lookup_failure "mydb" e, []).
Proof.
  apply (dangling_network_aborts
           (daemon [mydb_raw_on [ {| Raw.NetTarget := "gone" |} ]] backend_networks)
           mydb_params (mydb_raw_on [ {| Raw.NetTarget := "gone" |} ]) []
           [ {| name := "backend"; id := "n4fz" |} ]).
  - reflexivity.
  - reflexivity.
  - left. intros e He. apply list_elem_of_singleton in He as ->. discriminate.
Defined.

(** X12. A live service whose mode has neither the key [Replicated] nor
    the key [Global] makes the lookup fail: the run ends in the lookup
    failure and issues no call, in check mode or not. *)
Theorem unknown_mode_aborts (dc : Client) (params : Params)
  (raw_data : Raw.Service) (rest : list Raw.Service) :
  services dc (p_name params) = Ok (raw_data :: rest) ->
  Raw.Replicated (Raw.mode (Raw.spec raw_data)) = None ->
  Raw.Global (Raw.mode (Raw.spec raw_data)) = false ->
  exists e, forall cm,
    main dc cm params = (lookup_failure (p_name params) e, []).
Proof.
  intros Hs Hr Hg.
  assert (H : exists e, get_service dc (p_name params) = Raise e).
  { unfold get_service. rewrite Hs; simpl.
    destruct (get_networks_names_ids dc) as [nn | e]; simpl;
      [| eexists; reflexivity].
    destruct (service_of_raw_unknown_mode raw_data nn Hr Hg) as [e He].
    rewrite He. eexists; reflexivity. }
  destruct H as [e He]. exists e. intros cm.
  apply get_service_failure_aborts. exact He.
Qed.

Lemma unknown_mode_aborts_witness :
  exists e, forall cm,
    main (daemon [mydb_raw_with unknown_mode None] []) cm mydb_params
    = (lookup_failure "mydb" e, []).
Proof.
  apply (unknown_mode_aborts (daemon [mydb_raw_with unknown_mode None] [])
           mydb_params (mydb_raw_with unknown_mode None) []); reflexivity.
Defined.

(** X13. The networks of a fetched service are the names of listed
    networks with the ids of the attachments, one per attachment and in
    their order. *)
Theorem fetched_networks_named (raw_data : Raw.Service)
  (networks_names_ids : list NameId) (ds : DockerService) :
  service_of_raw raw_data networks_names_ids = Ok ds ->
  Forall2 (fun nm a => exists e, e ∈ networks_names_ids
                         /\ id e = Raw.NetTarget a /\ name e = nm)
    (networks ds) (default [] (Raw.Networks (Raw.spec raw_data))).
Proof.
  unfold service_of_raw.
  repeat match goal with
         | |- context [bind ?r _] =>
             lazymatch r with
             | network_names _ _ _ => fail
             | _ => destruct r; simpl; [| discriminate]
             end
         end.
  destruct (network_names networks_names_ids _ _) as [r | e] eqn:E; simpl;
    [| discriminate].
  intros H. injection H as <-. simpl.
  destruct (network_names_sound _ _ _ _ E) as (names & -> & HF). exact HF.
Qed.

Lemma fetched_networks_named_witness :
  exists ds,
    service_of_raw (mydb_raw_on [ {| Raw.NetTarget := "n4fz" |} ])
      [ {| name := "backend"; id := "n4fz" |} ] = Ok ds
    /\ Forall2 (fun nm a => exists e, e ∈ [ {| name := "backend"; id := "n4fz" |} ]
                             /\ id e = Raw.NetTarget a /\ name e = nm)
         (networks ds) [ {| Raw.NetTarget := "n4fz" |} ].
Proof.
  destruct (service_of_raw (mydb_raw_on [ {| Raw.NetTarget := "n4fz" |} ])
              [ {| name := "backend"; id := "n4fz" |} ]) as [ds | e] eqn:E;
    [| vm_compute in E; discriminate E].
  exists ds. split; [reflexivity |].
  exact (fetched_networks_named _ _ _ E).
Defined.

Lemma same_key_same_entry (l : list NameId) (x y : NameId) :
  NoDup (map id l) -> x ∈ l -> y ∈ l -> id x = id y -> x = y.
Proof.
  induction l as [| z l IH]; intros Hnd Hx Hy Hid; [inversion Hx |].
  simpl in Hnd. apply NoDup_cons in Hnd as [Hz Hnd].
  apply elem_of_cons in Hx as [-> | Hx]; apply elem_of_cons in Hy as [-> | Hy].
  - reflexivity.
  - exfalso. apply Hz. rewrite Hid. apply list_elem_of_In, in_map, list_elem_of_In.
    exact Hy.
  - exfalso. apply Hz. rewrite <- Hid. apply list_elem_of_In, in_map, list_elem_of_In.
    exact Hx.
  - exact (IH Hnd Hx Hy Hid).
Qed.

Lemma name_of_found_id (networks_names_ids : list NameId) (n i : string) :
  NoDup (map id networks_names_ids) ->
  find_network_id n networks_names_ids = Some i ->
  network_name_of_id networks_names_ids i = Ok n.
Proof.
  intros Hnd Hf.
  destruct (find_network_id_Some _ _ _ Hf) as (e & Hin & Hn & Hi).
  unfold network_name_of_id.
  destruct (filter (fun x => id x = i) networks_names_ids) as [| e' l] eqn:E.
  - exfalso.
    assert (He : e ∈ filter (fun x => id x = i) networks_names_ids)
      by (apply list_elem_of_filter; auto).
    rewrite E in He. inversion He.
  - assert (He' : e' ∈ filter (fun x => id x = i) networks_names_ids)
      by (rewrite E; left).
    apply list_elem_of_filter in He' as [Hi' Hin'].
    assert (e' = e) as -> by (apply (same_key_same_entry networks_names_ids);
                              auto; congruence).
    rewrite Hn. reflexivity.
Qed.

(** X14. Names, ids and back: when the listed networks have distinct ids
    and every name of a list resolves, the fetcher reads the targets that
    the translator produced for these names back as the same names, in the
    same order. *)
Theorem network_names_round_trip (networks_names_ids : list NameId)
  (names : list string) :
  NoDup (map id networks_names_ids) ->
  Forall (fun n => resolved networks_names_ids n = true) names ->
  resolve_networks names networks_names_ids [] = Ok (targets networks_names_ids names)
  /\ network_names networks_names_ids
       (map stored_attachment (targets networks_names_ids names)) []
     = Ok names.
Proof.
  intros Hnd HF. split; [apply (resolve_networks_all _ _ [] HF) |].
  enough (H : forall acc,
             network_names networks_names_ids
               (map stored_attachment (targets networks_names_ids names)) acc
             = Ok (acc ++ names)) by exact (H []).
  induction HF as [| n names Hn _ IH]; intros acc; simpl.
  - rewrite app_nil_r. reflexivity.
  - unfold resolved in Hn.
    destruct (find_network_id n networks_names_ids) as [i |] eqn:E;
      [| discriminate Hn].
    simpl. rewrite (name_of_found_id _ _ _ Hnd E); simpl.
    rewrite IH, <- app_assoc. reflexivity.
Qed.

Lemma network_names_round_trip_witness :
  network_names [ {| name := "backend"; id := "n4fz" |};
                  {| name := "frontend"; id := "p8c1" |} ]
    (map stored_attachment
       (targets [ {| name := "backend"; id := "n4fz" |};
                  {| name := "frontend"; id := "p8c1" |} ]
          ["frontend"; "backend"])) []
  = Ok ["frontend"; "backend"].
Proof.
  apply (network_names_round_trip
           [ {| name := "backend"; id := "n4fz" |};
             {| name := "frontend"; id := "p8c1" |} ] ["frontend"; "backend"]).
  - apply (bool_decide_unpack _). vm_compute. exact I.
  - repeat constructor.
Defined.

(** X15. The memory normalization of the fetcher is the floor of the
    byte count in MiB: what is beyond a whole number of MiB is dropped, so
    byte counts within the same MiB read as the same limit. *)
Theorem mb_of_bytes_floor (bytes : Z) :
  mb_of_bytes bytes = bytes / 1048576
  /\ 1048576 * mb_of_bytes bytes <= bytes < 1048576 * (mb_of_bytes bytes + 1).
Proof.
  assert (H : mb_of_bytes bytes = bytes / 1048576).
  { unfold mb_of_bytes. rewrite Z.div_div by lia. reflexivity. }
  split; [exact H |]. rewrite H.
  pose proof (Z.mul_div_le bytes 1048576 ltac:(lia)).
  pose proof (Z.mul_succ_div_gt bytes 1048576 ltac:(lia)).
  lia.
Qed.
